(** * ion-os: the C entry stage ([kernel/c_entry/main.c])

    A shallow embedding of [validate_boot_info] and [kernel_main] and the
    properties of the validate-then-handoff protocol.

    The C code is straight-line code over three pieces of state: the boot
    descriptor it borrows through a [const BootInfo*], the [int] cell behind
    [__errno_location()], and the text buffer at [0xB8000].  As in C's object
    model these are distinct objects: a [BootInfo] object does not overlap the
    [errno] cell or the text buffer.  The machine below keeps one store per
    kind of object, and a trace of what the code did, in order. *)

From Stdlib Require Import ZArith List Bool Lia.
From stdpp Require Import base gmap.

Local Open Scope Z_scope.

(** ** Fixed-width integers *)

(** Conversion to [unsigned short] and to [uint32_t]: reduction modulo two
    to the width. *)
Definition u16 (z : Z) : Z := z mod 2 ^ 16.
Definition u32 (z : Z) : Z := z mod 2 ^ 32.

Definition in_u32 (z : Z) : Prop := 0 <= z < 2 ^ 32.
Definition in_u64 (z : Z) : Prop := 0 <= z < 2 ^ 64.

(** ** Data *)

(** [BootInfo]: four [uint32_t] fields followed by six [uint64_t] fields. *)
Record BootInfo : Type := mkBootInfo {
  multiboot_magic : Z;
  multiboot_info : Z;
  cpuid_edx : Z;
  cpuid_ecx : Z;
  page_table_base : Z;
  stack_top : Z;
  framebuffer_addr : Z;
  memory_map_addr : Z;
  kernel_entry : Z;
  boot_entry : Z
}.

(** The values a [BootInfo] object can hold. *)
Definition BootInfo_wf (d : BootInfo) : Prop :=
  in_u32 (multiboot_magic d) /\ in_u32 (multiboot_info d) /\
  in_u32 (cpuid_edx d) /\ in_u32 (cpuid_ecx d) /\
  in_u64 (page_table_base d) /\ in_u64 (stack_top d) /\
  in_u64 (framebuffer_addr d) /\ in_u64 (memory_map_addr d) /\
  in_u64 (kernel_entry d) /\ in_u64 (boot_entry d).

(** [ValidatedBootInfo]: the borrowed pointer and the verdict. *)
Record ValidatedBootInfo : Type := mkValidatedBootInfo {
  input : Z;
  validity : bool
}.

(** ** The machine *)

(** What the code does, as seen from outside: stores to the text buffer
    ([vga[i] = v]), stores through the [errno] pointer, entries into
    [validate_boot_info], and calls of the next stage. *)
Inductive event : Type :=
| EvVga (cell : Z) (value : Z)
| EvErrno (code : Z)
| EvValidate (bi : Z)
| EvHandoff (vbi : ValidatedBootInfo).

Record machine : Type := mkMachine {
  descriptors : gmap Z BootInfo;   (* the [BootInfo] object at each address *)
  errno_cell : Z;                  (* the [int] behind [__errno_location()] *)
  vga_cells : gmap Z Z;            (* [unsigned short] cells at [0xB8000] *)
  trace : list event               (* oldest first *)
}.

(** How a piece of code ends: it returns a value, it hands control away for
    good, or it has no defined behaviour (a read through a pointer to no
    descriptor). *)
Inductive outcome (A : Type) : Type :=
| Returns (a : A) (m : machine)
| NoReturn (m : machine)
| Undefined.
Arguments Returns {A} a m.
Arguments NoReturn {A} m.
Arguments Undefined {A}.

Definition M (A : Type) : Type := machine -> outcome A.

Definition ret {A} (a : A) : M A := fun m => Returns a m.

(** Sequencing: what follows a call runs only if the call returns. *)
Definition bind {A B} (c : M A) (k : A -> M B) : M B :=
  fun m =>
    match c m with
    | Returns a m' => k a m'
    | NoReturn m' => NoReturn m'
    | Undefined => Undefined
    end.

Declare Scope M_scope.
Delimit Scope M_scope with M.
Bind Scope M_scope with M.
Notation "x ← y ; z" := (bind y (fun x => z))
  (at level 20, y at level 100, z at level 200, only parsing) : M_scope.
Notation "y ;; z" := (bind y (fun _ => z))
  (at level 100, z at level 200, right associativity, only parsing) : M_scope.
Local Open Scope M_scope.

(** The three ways this stage changes the machine. *)
Definition log (e : event) (m : machine) : machine :=
  {| descriptors := descriptors m; errno_cell := errno_cell m;
     vga_cells := vga_cells m; trace := trace m ++ [e] |}.

Definition set_errno (v : Z) (m : machine) : machine :=
  {| descriptors := descriptors m; errno_cell := v;
     vga_cells := vga_cells m; trace := trace m ++ [EvErrno v] |}.

Definition set_vga (i v : Z) (m : machine) : machine :=
  {| descriptors := descriptors m; errno_cell := errno_cell m;
     vga_cells := <[i := v]> (vga_cells m); trace := trace m ++ [EvVga i v] |}.

Definition emit (e : event) : M unit := fun m => Returns tt (log e m).

(** [bi->f]: a read of field [f] of the descriptor [bi] points to. *)
Definition field (bi : Z) (f : BootInfo -> Z) : M Z :=
  fun m =>
    match descriptors m !! bi with
    | Some d => Returns (f d) m
    | None => Undefined
    end.

(** [vga[i] = v], with the conversion of [v] to [unsigned short]. *)
Definition vga_store (i v : Z) : M unit :=
  fun m => Returns tt (set_vga i (u16 v) m).

(** Pointers to [int]: this stage only ever holds the one to [errno]. *)
Inductive int_ptr : Type := ErrnoCell.

(** Modelled from the spec: [__errno_location], declared [extern] here and
    defined elsewhere, gives the address of the process-wide diagnostic
    code. *)
Definition __errno_location : M int_ptr := ret ErrnoCell.

(** [*p = v] for [p] an [int*]. *)
Definition int_store (p : int_ptr) (v : Z) : M unit :=
  fun m => match p with ErrnoCell => Returns tt (set_errno v m) end.

(** C's [a || b] and [e == 0], [e != 0] on the results of reads. *)
Definition orM (a b : M bool) : M bool :=
  x ← a ; if x then ret true else b.

Definition is_zero (c : M Z) : M bool := v ← c ; ret (v =? 0).
Definition is_nonzero (c : M Z) : M bool := v ← c ; ret (negb (v =? 0)).
Definition mask (c : M Z) (k : Z) : M Z := v ← c ; ret (Z.land v k).

(** ** The code *)

Definition validate_boot_info (bi : Z) : M bool :=
  emit (EvValidate bi) ;;
  errno ← __errno_location ;
  magic ← field bi multiboot_magic ;
  if negb (magic =? 0x36d76289) then int_store errno 7 ;; ret false else
  c ← orM (is_zero (field bi page_table_base))
           (is_nonzero (mask (field bi page_table_base) 0xFFF)) ;
  if c then int_store errno 2 ;; ret false else
  c ← orM (is_zero (field bi stack_top))
           (is_nonzero (mask (field bi stack_top) 0xF)) ;
  if c then int_store errno 2 ;; ret false else
  c ← is_zero (field bi kernel_entry) ;
  if c then int_store errno 2 ;; ret false else
  c ← is_zero (field bi framebuffer_addr) ;
  if c then int_store errno 2 ;; ret false else
  c ← is_zero (field bi memory_map_addr) ;
  if c then int_store errno 2 ;; ret false else
  ret true.

Section Shim.

(** The next stage, [rust_kernel_entry], is declared [extern void] here and
    defined elsewhere: [kernel_main] is parametric in what it does.
    The [vbi] it is given is the content of the local the pointer refers to. *)
Variable rust_kernel_entry : ValidatedBootInfo -> M unit.

Definition handoff (vbi : ValidatedBootInfo) : M unit :=
  emit (EvHandoff vbi) ;; rust_kernel_entry vbi.

Definition kernel_main (bi : Z) : M unit :=
  vga_store 0 0x074F ;;
  vga_store 1 0x074B ;;
  magic ← field bi multiboot_magic ;
  vga_store 2 (u32 (0x0730 + Z.land (Z.shiftr magic 0) 0xF)) ;;
  magic ← field bi multiboot_magic ;
  vga_store 3 (u32 (0x0730 + Z.land (Z.shiftr magic 4) 0xF)) ;;
  v ← validate_boot_info bi ;
  handoff {| input := bi; validity := v |}.

End Shim.

(** Modelled from the spec: [rust_kernel_entry], the next-stage entry point,
    which lives in the Rust part of the kernel.  The handoff is a one-way
    control transfer: the next stage takes over and never hands control back. *)
Definition rust_kernel_entry_spec (vbi : ValidatedBootInfo) : M unit :=
  fun m => NoReturn m.

(** ** Reading a run *)

(** The events a run added, and the ones of each kind among them. *)
Definition events_since (m m' : machine) : list event :=
  drop (length (trace m)) (trace m').

Definition vga_writes (t : list event) : list (Z * Z) :=
  omap (fun e => match e with EvVga i v => Some (i, v) | _ => None end) t.

Definition errno_writes (t : list event) : list Z :=
  omap (fun e => match e with EvErrno c => Some c | _ => None end) t.

Definition validations (t : list event) : list Z :=
  omap (fun e => match e with EvValidate bi => Some bi | _ => None end) t.

Definition handoffs (t : list event) : list ValidatedBootInfo :=
  omap (fun e => match e with EvHandoff vbi => Some vbi | _ => None end) t.

(** The events before the first entry into [validate_boot_info]. *)
Fixpoint before_validation (t : list event) : list event :=
  match t with
  | [] => []
  | EvValidate _ :: _ => []
  | e :: t' => e :: before_validation t'
  end.

(** A text cell is an attribute byte above a character byte. *)
Definition attribute (cell : Z) : Z := Z.shiftr cell 8.
Definition glyph (cell : Z) : Z := Z.land cell 0xFF.

Definition light_gray_on_black : Z := 0x07.

(** The characters [0-9], [A-F] and [a-f]. *)
Definition is_hex_digit (c : Z) : bool :=
  (0x30 <=? c) && (c <=? 0x39) || (0x41 <=? c) && (c <=? 0x46) ||
  (0x61 <=? c) && (c <=? 0x66).

Definition nibble (k : Z) (x : Z) : Z := Z.land (Z.shiftr x (4 * k)) 0xF.

(** ** The checks, in the words of the design *)

Definition MULTIBOOT2_MAGIC : Z := 0x36d76289.

Definition magic_ok (d : BootInfo) : Prop := multiboot_magic d = MULTIBOOT2_MAGIC.

Definition page_table_ok (d : BootInfo) : Prop :=
  page_table_base d <> 0 /\ page_table_base d mod 4096 = 0.

Definition stack_ok (d : BootInfo) : Prop :=
  stack_top d <> 0 /\ stack_top d mod 16 = 0.

Definition addresses_ok (d : BootInfo) : Prop :=
  kernel_entry d <> 0 /\ framebuffer_addr d <> 0 /\ memory_map_addr d <> 0.

Definition structure_ok (d : BootInfo) : Prop :=
  page_table_ok d /\ stack_ok d /\ addresses_ok d.

(** ** Summary of a call *)

(** The six tests as the code computes them, first failure first, with the
    code stored to [errno] by the one that fails. *)
Definition failure (d : BootInfo) : option Z :=
  if negb (multiboot_magic d =? 0x36d76289) then Some 7
  else if (page_table_base d =? 0) || negb (Z.land (page_table_base d) 0xFFF =? 0) then Some 2
  else if (stack_top d =? 0) || negb (Z.land (stack_top d) 0xF =? 0) then Some 2
  else if kernel_entry d =? 0 then Some 2
  else if framebuffer_addr d =? 0 then Some 2
  else if memory_map_addr d =? 0 then Some 2
  else None.

(** The machine after a diagnostic (or none) has been reported. *)
Definition report (c : option Z) (m : machine) : machine :=
  match c with
  | Some k => set_errno k m
  | None => m
  end.

Definition verdict (c : option Z) : bool :=
  match c with Some _ => false | None => true end.

(** The events of that report. *)
Definition diagnostic_events (c : option Z) : list event :=
  match c with
  | Some k => [EvErrno k]
  | None => []
  end.

(** The machine at the moment control is handed to the next stage. *)
Definition at_handoff (bi : Z) (d : BootInfo) (m : machine) : machine :=
  let m := set_vga 0 0x074F m in
  let m := set_vga 1 0x074B m in
  let m := set_vga 2 (0x0730 + nibble 0 (multiboot_magic d)) m in
  let m := set_vga 3 (0x0730 + nibble 1 (multiboot_magic d)) m in
  let m := report (failure d) (log (EvValidate bi) m) in
  log (EvHandoff {| input := bi; validity := verdict (failure d) |}) m.

(** ** Reading a call *)

(** [validate_boot_info] refuses the descriptor at [bi] with diagnostic
    [code]: it returns [false], having written [code], once, to [errno]. *)
Definition refuses_with (code : Z) (bi : Z) (m : machine) : Prop :=
  exists m', validate_boot_info bi m = Returns false m' /\
             errno_cell m' = code /\
             errno_writes (events_since m m') = [code].

(** [validate_boot_info] accepts the descriptor at [bi]: it returns [true]
    and [errno] is neither written nor changed. *)
Definition accepts (bi : Z) (m : machine) : Prop :=
  exists m', validate_boot_info bi m = Returns true m' /\
             errno_cell m' = errno_cell m /\
             errno_writes (events_since m m') = [].

(** [kernel_main bi], started on [m], enters the next stage with [vbi] on the
    machine [m'], and the call of the next stage is all that is left of it:
    whatever the next stage does is what [kernel_main] does from there. *)
Definition hands_over (bi : Z) (m : machine) (vbi : ValidatedBootInfo) (m' : machine) : Prop :=
  forall next : ValidatedBootInfo -> M unit, kernel_main next bi m = next vbi m'.

(** The stores this stage is entitled to: [errno], and text cells 0 to 3. *)
Definition allowed (e : event) : Prop :=
  match e with
  | EvVga i _ => 0 <= i <= 3
  | _ => True
  end.

(** Two descriptors that agree on the six fields the validator tests. *)
Definition same_checked_fields (d1 d2 : BootInfo) : Prop :=
  multiboot_magic d1 = multiboot_magic d2 /\
  page_table_base d1 = page_table_base d2 /\
  stack_top d1 = stack_top d2 /\
  kernel_entry d1 = kernel_entry d2 /\
  framebuffer_addr d1 = framebuffer_addr d2 /\
  memory_map_addr d1 = memory_map_addr d2.

(** ** Sample descriptors *)

Definition sample (magic ptb : Z) : BootInfo :=
  {| multiboot_magic := magic; multiboot_info := 0x9500;
     cpuid_edx := 0x078bfbff; cpuid_ecx := 0x80202001;
     page_table_base := ptb; stack_top := 0x2000;
     framebuffer_addr := 0x4000; memory_map_addr := 0x5000;
     kernel_entry := 0x3000; boot_entry := 0x100000 |}.

Definition good_descriptor : BootInfo := sample 0x36d76289 0x1000.
Definition deadbeef_descriptor : BootInfo := sample 0xDEADBEEF 0x1000.
Definition misaligned_descriptor : BootInfo := sample 0x36d76289 0x1001.

Definition same_low_byte_descriptor : BootInfo := sample 0xDEADBE89 0x1000.

(** [good_descriptor] with other values in the four fields no test reads. *)
Definition other_unchecked_descriptor : BootInfo :=
  {| multiboot_magic := 0x36d76289; multiboot_info := 0;
     cpuid_edx := 0xFFFFFFFF; cpuid_ecx := 1;
     page_table_base := 0x1000; stack_top := 0x2000;
     framebuffer_addr := 0x4000; memory_map_addr := 0x5000;
     kernel_entry := 0x3000; boot_entry := 0 |}.

(** A machine fresh from the boot stage, with [d] at address [0x7000]. *)
Definition booted (d : BootInfo) : machine :=
  {| descriptors := {[ 0x7000 := d ]}; errno_cell := 0; vga_cells := ∅; trace := [] |}.


(** A next stage that comes back at once, as the declaration
    [extern void rust_kernel_entry] lets it. *)
Definition returning_stage (vbi : ValidatedBootInfo) : M unit := ret tt.

(** * Properties *)

(** ** Arithmetic of the tests *)

Lemma land_low_bits (x : Z) (k : Z) : 0 <= k -> Z.land x (2 ^ k - 1) = x mod 2 ^ k.
Proof.
  intros Hk. replace (2 ^ k - 1) with (Z.ones k) by (rewrite Z.ones_equiv; lia).
  apply Z.land_ones; exact Hk.
Qed.

Lemma land_0xFFF (x : Z) : Z.land x 0xFFF = x mod 4096.
Proof. exact (land_low_bits x 12 ltac:(lia)). Qed.

Lemma land_0xF (x : Z) : Z.land x 0xF = x mod 16.
Proof. exact (land_low_bits x 4 ltac:(lia)). Qed.

Lemma nibble_range (k x : Z) : 0 <= nibble k x < 16.
Proof. unfold nibble. rewrite land_0xF. apply Z.mod_pos_bound. lia. Qed.

Lemma cell_value (k x : Z) : u16 (u32 (0x0730 + nibble k x)) = 0x0730 + nibble k x.
Proof.
  pose proof (nibble_range k x) as H. unfold u16, u32.
  change (2 ^ 32) with 4294967296. change (2 ^ 16) with 65536.
  rewrite (Z.mod_small _ 4294967296) by lia. apply Z.mod_small. lia.
Qed.

Example booted_lookup : descriptors (booted good_descriptor) !! 0x7000 = Some good_descriptor.
Proof. reflexivity. Qed.

(** The three examples of the design, run on the code. *)
Example good_run :
  validate_boot_info 0x7000 (booted good_descriptor)
  = Returns true (log (EvValidate 0x7000) (booted good_descriptor)).
Proof. vm_compute. reflexivity. Qed.

Example deadbeef_run :
  validate_boot_info 0x7000 (booted deadbeef_descriptor)
  = Returns false (set_errno 7 (log (EvValidate 0x7000) (booted deadbeef_descriptor))).
Proof. vm_compute. reflexivity. Qed.

Example misaligned_run :
  validate_boot_info 0x7000 (booted misaligned_descriptor)
  = Returns false (set_errno 2 (log (EvValidate 0x7000) (booted misaligned_descriptor))).
Proof. vm_compute. reflexivity. Qed.

(** A read through a pointer to no descriptor has no defined behaviour. *)
Example dangling_run :
  validate_boot_info 0x8000 (booted good_descriptor) = Undefined.
Proof. vm_compute. reflexivity. Qed.

(** ** What the two functions compute *)

Lemma field_run (m : machine) (bi : Z) (d : BootInfo) (f : BootInfo -> Z) :
  descriptors m !! bi = Some d -> field bi f m = Returns (f d) m.
Proof. intros H. unfold field. rewrite H. reflexivity. Qed.

Ltac step_field H :=
  match goal with
  | |- context [field ?bi ?f ?m] => rewrite (field_run m bi _ f H)
  end.

(** One call of [validate_boot_info]: the entry is logged, the first failing
    test reports its code, and the verdict says whether one failed. *)
Lemma validate_boot_info_run (m : machine) (bi : Z) (d : BootInfo) :
  descriptors m !! bi = Some d ->
  validate_boot_info bi m
  = Returns (verdict (failure d)) (report (failure d) (log (EvValidate bi) m)).
Proof.
  intros H.
  assert (H' : descriptors (log (EvValidate bi) m) !! bi = Some d) by exact H.
  unfold validate_boot_info, failure, bind at 1, emit.
  unfold bind at 1, __errno_location, ret at 1.
  unfold bind at 1. step_field H'.
  destruct (multiboot_magic d =? 0x36d76289); cbn [negb]; [|reflexivity].
  unfold orM, is_zero, is_nonzero, mask, bind, ret.
  repeat step_field H'.
  destruct (page_table_base d =? 0); cbn [orb negb]; [reflexivity|].
  repeat step_field H'.
  destruct (Z.land (page_table_base d) 0xFFF =? 0); cbn [orb negb]; [|reflexivity].
  repeat step_field H'.
  destruct (stack_top d =? 0); cbn [orb negb]; [reflexivity|].
  repeat step_field H'.
  destruct (Z.land (stack_top d) 0xF =? 0); cbn [orb negb]; [|reflexivity].
  repeat step_field H'.
  destruct (kernel_entry d =? 0); [reflexivity|].
  repeat step_field H'.
  destruct (framebuffer_addr d =? 0); [reflexivity|].
  repeat step_field H'.
  destruct (memory_map_addr d =? 0); reflexivity.
Qed.

(** One call of [kernel_main]: whatever the next stage is, it is entered on
    the machine [at_handoff] with the descriptor's address and the verdict,
    and what it does is all that remains of the call. *)
Lemma kernel_main_run (next : ValidatedBootInfo -> M unit)
    (m : machine) (bi : Z) (d : BootInfo) :
  descriptors m !! bi = Some d ->
  kernel_main next bi m
  = next {| input := bi; validity := verdict (failure d) |} (at_handoff bi d m).
Proof.
  intros H. unfold kernel_main, handoff, at_handoff.
  unfold bind at 1, vga_store at 1. unfold bind at 1, vga_store at 1.
  unfold bind at 1. rewrite (field_run _ bi d multiboot_magic) by exact H.
  unfold bind at 1, vga_store at 1.
  unfold bind at 1. rewrite (field_run _ bi d multiboot_magic) by exact H.
  unfold bind at 1, vga_store at 1.
  unfold bind at 1. rewrite (validate_boot_info_run _ bi d) by exact H.
  unfold bind at 1, emit.
  change (Z.shiftr (multiboot_magic d) 0) with (Z.shiftr (multiboot_magic d) (4 * 0)).
  change (Z.shiftr (multiboot_magic d) 4) with (Z.shiftr (multiboot_magic d) (4 * 1)).
  fold (nibble 0 (multiboot_magic d)). fold (nibble 1 (multiboot_magic d)).
  rewrite !cell_value.
  reflexivity.
Qed.

(** ** The tests of the code against the checks of the design *)

Ltac split_tests :=
  repeat match goal with
         | |- context [?a =? ?b] => destruct (Z.eqb_spec a b)
         end;
  cbn [negb orb].

Lemma failure_cases (d : BootInfo) :
  (failure d = Some 7 /\ ~ magic_ok d) \/
  (failure d = Some 2 /\ magic_ok d /\ ~ structure_ok d) \/
  (failure d = None /\ magic_ok d /\ structure_ok d).
Proof.
  unfold failure, structure_ok, page_table_ok, stack_ok, addresses_ok, magic_ok,
    MULTIBOOT2_MAGIC.
  rewrite land_0xFFF, land_0xF.
  split_tests; intuition congruence.
Qed.

Lemma failure_magic (d : BootInfo) : failure d = Some 7 <-> ~ magic_ok d.
Proof. destruct (failure_cases d) as [H | [H | H]]; intuition congruence. Qed.

Lemma failure_structure (d : BootInfo) :
  failure d = Some 2 <-> magic_ok d /\ ~ structure_ok d.
Proof. destruct (failure_cases d) as [H | [H | H]]; intuition congruence. Qed.

Lemma failure_none (d : BootInfo) : failure d = None <-> magic_ok d /\ structure_ok d.
Proof. destruct (failure_cases d) as [H | [H | H]]; intuition congruence. Qed.

(** ** Traces of a call *)

Lemma events_since_app (m m' : machine) (evs : list event) :
  trace m' = trace m ++ evs -> events_since m m' = evs.
Proof. intros H. unfold events_since. rewrite H. apply drop_app_length. Qed.

Lemma report_trace (c : option Z) (m : machine) :
  trace (report c m) = trace m ++ diagnostic_events c.
Proof. destruct c; cbn; [reflexivity | symmetry; apply app_nil_r]. Qed.

Lemma report_descriptors (c : option Z) (m : machine) :
  descriptors (report c m) = descriptors m.
Proof. destruct c; reflexivity. Qed.

Lemma report_vga_cells (c : option Z) (m : machine) :
  vga_cells (report c m) = vga_cells m.
Proof. destruct c; reflexivity. Qed.

Lemma validate_events (m : machine) (bi : Z) (c : option Z) :
  events_since m (report c (log (EvValidate bi) m))
  = EvValidate bi :: diagnostic_events c.
Proof.
  apply events_since_app. rewrite report_trace. cbn [trace log].
  rewrite <- app_assoc. reflexivity.
Qed.

Lemma at_handoff_events (m : machine) (bi : Z) (d : BootInfo) :
  events_since m (at_handoff bi d m)
  = [EvVga 0 0x074F; EvVga 1 0x074B;
     EvVga 2 (0x0730 + nibble 0 (multiboot_magic d));
     EvVga 3 (0x0730 + nibble 1 (multiboot_magic d));
     EvValidate bi]
    ++ diagnostic_events (failure d)
    ++ [EvHandoff {| input := bi; validity := verdict (failure d) |}].
Proof.
  apply events_since_app. unfold at_handoff. cbn [trace log].
  rewrite report_trace. cbn [trace log set_vga].
  rewrite <- !app_assoc. reflexivity.
Qed.

Lemma at_handoff_descriptors (m : machine) (bi : Z) (d : BootInfo) :
  descriptors (at_handoff bi d m) = descriptors m.
Proof. unfold at_handoff. cbn [descriptors log]. rewrite report_descriptors. reflexivity. Qed.

Lemma at_handoff_vga_cells (m : machine) (bi : Z) (d : BootInfo) :
  vga_cells (at_handoff bi d m)
  = <[3 := 0x0730 + nibble 1 (multiboot_magic d)]>
      (<[2 := 0x0730 + nibble 0 (multiboot_magic d)]>
         (<[1 := 0x074B]> (<[0 := 0x074F]> (vga_cells m)))).
Proof. unfold at_handoff. cbn [vga_cells log]. rewrite report_vga_cells. reflexivity. Qed.

Lemma hands_over_at_handoff (m : machine) (bi : Z) (d : BootInfo) :
  descriptors m !! bi = Some d ->
  hands_over bi m {| input := bi; validity := verdict (failure d) |} (at_handoff bi d m).
Proof. intros H next. apply kernel_main_run. exact H. Qed.

Lemma refuses_with_failure (m : machine) (bi : Z) (d : BootInfo) (code : Z) :
  descriptors m !! bi = Some d -> failure d = Some code -> refuses_with code bi m.
Proof.
  intros H Hf. exists (report (failure d) (log (EvValidate bi) m)).
  rewrite (validate_boot_info_run m bi d H), validate_events, Hf.
  repeat split.
Qed.

Lemma accepts_no_failure (m : machine) (bi : Z) (d : BootInfo) :
  descriptors m !! bi = Some d -> failure d = None -> accepts bi m.
Proof.
  intros H Hf. exists (report (failure d) (log (EvValidate bi) m)).
  rewrite (validate_boot_info_run m bi d H), validate_events, Hf.
  repeat split.
Qed.

(** ** The validator *)

(** C1. A descriptor whose magic number is not [0x36d76289] is refused with
    diagnostic code 7: [validate_boot_info] returns [false] and has set
    [errno] to 7, whatever the other nine fields hold. *)
Theorem validate_wrong_magic (m : machine) (bi : Z) (d : BootInfo) :
  descriptors m !! bi = Some d ->
  multiboot_magic d <> 0x36d76289 ->
  refuses_with 7 bi m.
Proof.
  intros H Hmagic. apply (refuses_with_failure m bi d 7 H).
  apply failure_magic. exact Hmagic.
Qed.

Lemma validate_wrong_magic_witness :
  descriptors (booted deadbeef_descriptor) !! 0x7000 = Some deadbeef_descriptor /\
  multiboot_magic deadbeef_descriptor <> 0x36d76289 /\
  refuses_with 7 0x7000 (booted deadbeef_descriptor).
Proof.
  assert (Hmagic : multiboot_magic deadbeef_descriptor <> 0x36d76289)
    by (simpl; lia).
  split; [reflexivity | split; [exact Hmagic |]].
  apply (validate_wrong_magic (booted deadbeef_descriptor) 0x7000 deadbeef_descriptor);
    [reflexivity | exact Hmagic].
Defined.

(** C2. With the right magic number, a descriptor is refused with diagnostic
    code 2 when its page-table base is zero or not a multiple of 4096; else
    when its stack top is zero or not a multiple of 16; else when its kernel
    entry, framebuffer or memory-map address is zero. *)
Theorem validate_bad_structure (m : machine) (bi : Z) (d : BootInfo) :
  descriptors m !! bi = Some d ->
  multiboot_magic d = 0x36d76289 ->
  (page_table_base d = 0 \/ page_table_base d mod 4096 <> 0 ->
   refuses_with 2 bi m) /\
  (page_table_ok d ->
   stack_top d = 0 \/ stack_top d mod 16 <> 0 ->
   refuses_with 2 bi m) /\
  (page_table_ok d -> stack_ok d ->
   kernel_entry d = 0 \/ framebuffer_addr d = 0 \/ memory_map_addr d = 0 ->
   refuses_with 2 bi m).
Proof.
  intros H Hmagic.
  assert (Hbad : ~ structure_ok d -> refuses_with 2 bi m).
  { intros Hs. apply (refuses_with_failure m bi d 2 H).
    apply failure_structure. split; [exact Hmagic | exact Hs]. }
  unfold structure_ok, page_table_ok, stack_ok, addresses_ok in *.
  repeat split; intros; apply Hbad; intuition congruence.
Qed.

Lemma validate_bad_structure_witness :
  descriptors (booted misaligned_descriptor) !! 0x7000 = Some misaligned_descriptor /\
  multiboot_magic misaligned_descriptor = 0x36d76289 /\
  page_table_base misaligned_descriptor mod 4096 <> 0 /\
  refuses_with 2 0x7000 (booted misaligned_descriptor).
Proof.
  assert (Hptb : page_table_base misaligned_descriptor mod 4096 <> 0)
    by (vm_compute; lia).
  split; [reflexivity | split; [reflexivity | split; [exact Hptb |]]].
  apply (proj1 (validate_bad_structure (booted misaligned_descriptor) 0x7000
                  misaligned_descriptor eq_refl eq_refl)).
  right. exact Hptb.
Defined.

(** C3. A descriptor that passes all six checks is accepted:
    [validate_boot_info] returns [true], writes nothing to [errno] and leaves
    its value as it was. *)
Theorem validate_all_checks_pass (m : machine) (bi : Z) (d : BootInfo) :
  descriptors m !! bi = Some d ->
  multiboot_magic d = 0x36d76289 ->
  page_table_base d <> 0 -> page_table_base d mod 4096 = 0 ->
  stack_top d <> 0 -> stack_top d mod 16 = 0 ->
  kernel_entry d <> 0 -> framebuffer_addr d <> 0 -> memory_map_addr d <> 0 ->
  accepts bi m.
Proof.
  intros H Hmagic Hp0 Hp1 Hs0 Hs1 Hk Hf Hm.
  apply (accepts_no_failure m bi d H). apply failure_none.
  unfold magic_ok, structure_ok, page_table_ok, stack_ok, addresses_ok.
  repeat split; assumption.
Qed.

Lemma validate_all_checks_pass_witness :
  descriptors (booted good_descriptor) !! 0x7000 = Some good_descriptor /\
  accepts 0x7000 (booted good_descriptor).
Proof.
  split; [reflexivity |].
  apply (validate_all_checks_pass (booted good_descriptor) 0x7000 good_descriptor);
    solve [reflexivity | vm_compute; lia].
Defined.

(** ** The entry shim *)

(** The two nibbles on display are read off the low byte of the magic. *)
Lemma nibble_low_byte (k x : Z) :
  k = 0 \/ k = 1 -> nibble k (Z.land x 0xFF) = nibble k x.
Proof.
  intros Hk. unfold nibble. rewrite Z.shiftr_land, <- Z.land_assoc.
  destruct Hk as [-> | ->]; reflexivity.
Qed.

Lemma nibble_same_low_byte (k x y : Z) :
  k = 0 \/ k = 1 -> Z.land x 0xFF = Z.land y 0xFF -> nibble k x = nibble k y.
Proof.
  intros Hk Hxy.
  rewrite <- (nibble_low_byte k x Hk), <- (nibble_low_byte k y Hk), Hxy.
  reflexivity.
Qed.

(** C4. Each call of [kernel_main] calls the next stage once and in every
    case, refused or accepted: the argument holds the address it was given and
    the verdict of [validate_boot_info] on it, the descriptor at that address
    is as it was, and the call is the only handoff of the run. *)
Theorem kernel_main_hands_over_once (m : machine) (bi : Z) (d : BootInfo) :
  descriptors m !! bi = Some d ->
  exists (v : bool) (m' : machine),
    (exists mv, validate_boot_info bi m = Returns v mv) /\
    hands_over bi m {| input := bi; validity := v |} m' /\
    handoffs (events_since m m') = [{| input := bi; validity := v |}] /\
    descriptors m' !! bi = Some d.
Proof.
  intros H. exists (verdict (failure d)), (at_handoff bi d m).
  split; [| split; [| split]].
  - eexists. apply (validate_boot_info_run m bi d H).
  - apply hands_over_at_handoff. exact H.
  - rewrite at_handoff_events. destruct (failure d); reflexivity.
  - rewrite at_handoff_descriptors. exact H.
Qed.

Lemma kernel_main_hands_over_once_witness :
  descriptors (booted misaligned_descriptor) !! 0x7000 = Some misaligned_descriptor /\
  exists (v : bool) (m' : machine),
    (exists mv, validate_boot_info 0x7000 (booted misaligned_descriptor) = Returns v mv) /\
    hands_over 0x7000 (booted misaligned_descriptor) {| input := 0x7000; validity := v |} m' /\
    handoffs (events_since (booted misaligned_descriptor) m')
    = [{| input := 0x7000; validity := v |}] /\
    descriptors m' !! 0x7000 = Some misaligned_descriptor.
Proof.
  split; [reflexivity |].
  apply (kernel_main_hands_over_once (booted misaligned_descriptor) 0x7000
           misaligned_descriptor).
  reflexivity.
Defined.

(** C6. A run of this stage, [validate_boot_info] included, changes no
    descriptor; of the text buffer it changes at most cells 0 to 3; every
    store it makes is to [errno] or to one of those four cells. *)
Theorem kernel_main_frame (m : machine) (bi : Z) (d : BootInfo) :
  descriptors m !! bi = Some d ->
  exists (vbi : ValidatedBootInfo) (m' : machine),
    hands_over bi m vbi m' /\
    descriptors m' = descriptors m /\
    (forall i : Z, ~ (0 <= i <= 3) -> vga_cells m' !! i = vga_cells m !! i) /\
    Forall allowed (events_since m m').
Proof.
  intros H. eexists _, (at_handoff bi d m).
  split; [| split; [| split]].
  - apply hands_over_at_handoff. exact H.
  - apply at_handoff_descriptors.
  - intros i Hi. rewrite at_handoff_vga_cells.
    rewrite !lookup_insert_ne by lia. reflexivity.
  - rewrite at_handoff_events.
    destruct (failure d); repeat constructor; cbn; lia.
Qed.

Lemma kernel_main_frame_witness :
  descriptors (booted deadbeef_descriptor) !! 0x7000 = Some deadbeef_descriptor /\
  exists (vbi : ValidatedBootInfo) (m' : machine),
    hands_over 0x7000 (booted deadbeef_descriptor) vbi m' /\
    descriptors m' = descriptors (booted deadbeef_descriptor) /\
    (forall i : Z, ~ (0 <= i <= 3) ->
                   vga_cells m' !! i = vga_cells (booted deadbeef_descriptor) !! i) /\
    Forall allowed (events_since (booted deadbeef_descriptor) m').
Proof.
  split; [reflexivity |].
  apply (kernel_main_frame (booted deadbeef_descriptor) 0x7000 deadbeef_descriptor).
  reflexivity.
Defined.

(** C7. [kernel_main] does not return.  The call of the next stage is the
    last thing it does: the handoff is the last event before the next stage
    runs, and nothing of [kernel_main] is left to run after it.  The next
    stage being a one-way transfer of control, the call ends in [NoReturn]. *)
Theorem kernel_main_never_returns (m : machine) (bi : Z) (d : BootInfo) :
  descriptors m !! bi = Some d ->
  (exists m', kernel_main rust_kernel_entry_spec bi m = NoReturn m') /\
  (forall m', kernel_main rust_kernel_entry_spec bi m <> Returns tt m') /\
  (exists (vbi : ValidatedBootInfo) (m' : machine),
      hands_over bi m vbi m' /\ last (trace m') = Some (EvHandoff vbi)).
Proof.
  intros H.
  pose proof (hands_over_at_handoff m bi d H) as Hrun.
  split; [| split].
  - eexists. rewrite (Hrun rust_kernel_entry_spec). reflexivity.
  - intros m'. rewrite (Hrun rust_kernel_entry_spec). discriminate.
  - eexists _, _. split; [exact Hrun |].
    unfold at_handoff. cbn [trace log]. apply last_snoc.
Qed.

Lemma kernel_main_never_returns_witness :
  descriptors (booted good_descriptor) !! 0x7000 = Some good_descriptor /\
  exists m', kernel_main rust_kernel_entry_spec 0x7000 (booted good_descriptor) = NoReturn m'.
Proof.
  split; [reflexivity |].
  apply (kernel_main_never_returns (booted good_descriptor) 0x7000 good_descriptor).
  reflexivity.
Defined.

(** ** What the outcome depends on *)

Lemma failure_same_checked_fields (d1 d2 : BootInfo) :
  same_checked_fields d1 d2 -> failure d1 = failure d2.
Proof.
  intros (Hmagic & Hptb & Hst & Hke & Hfb & Hmm). unfold failure.
  rewrite Hmagic, Hptb, Hst, Hke, Hfb, Hmm. reflexivity.
Qed.

(** C8. Two descriptors that agree on the six tested fields get the same
    verdict and the same diagnostic: the same writes to [errno], and equal
    values of [errno] afterwards if they were equal before.  The fields
    [multiboot_info], [cpuid_edx], [cpuid_ecx] and [boot_entry] play no part. *)
Theorem validate_ignores_unchecked_fields
    (m1 m2 : machine) (bi1 bi2 : Z) (d1 d2 : BootInfo) :
  descriptors m1 !! bi1 = Some d1 ->
  descriptors m2 !! bi2 = Some d2 ->
  same_checked_fields d1 d2 ->
  exists (v : bool) (m1' m2' : machine),
    validate_boot_info bi1 m1 = Returns v m1' /\
    validate_boot_info bi2 m2 = Returns v m2' /\
    errno_writes (events_since m1 m1') = errno_writes (events_since m2 m2') /\
    (errno_cell m1 = errno_cell m2 -> errno_cell m1' = errno_cell m2').
Proof.
  intros H1 H2 Hsame.
  pose proof (failure_same_checked_fields d1 d2 Hsame) as Hf.
  exists (verdict (failure d1)).
  exists (report (failure d1) (log (EvValidate bi1) m1)).
  exists (report (failure d2) (log (EvValidate bi2) m2)).
  split; [| split; [| split]].
  - apply validate_boot_info_run. exact H1.
  - rewrite Hf. apply validate_boot_info_run. exact H2.
  - rewrite !validate_events, Hf. reflexivity.
  - intros He. rewrite Hf. destruct (failure d2); [reflexivity | exact He].
Qed.

Lemma validate_ignores_unchecked_fields_witness :
  same_checked_fields good_descriptor other_unchecked_descriptor /\
  boot_entry good_descriptor <> boot_entry other_unchecked_descriptor /\
  exists (v : bool) (m1' m2' : machine),
    validate_boot_info 0x7000 (booted good_descriptor) = Returns v m1' /\
    validate_boot_info 0x7000 (booted other_unchecked_descriptor) = Returns v m2' /\
    errno_writes (events_since (booted good_descriptor) m1')
    = errno_writes (events_since (booted other_unchecked_descriptor) m2') /\
    (errno_cell (booted good_descriptor) = errno_cell (booted other_unchecked_descriptor) ->
     errno_cell m1' = errno_cell m2').
Proof.
  assert (Hsame : same_checked_fields good_descriptor other_unchecked_descriptor)
    by (repeat split; reflexivity).
  split; [exact Hsame | split; [simpl; lia |]].
  apply (validate_ignores_unchecked_fields
           (booted good_descriptor) (booted other_unchecked_descriptor)
           0x7000 0x7000 good_descriptor other_unchecked_descriptor);
    [reflexivity | reflexivity | exact Hsame].
Defined.

(** C9. Two descriptors whose magic numbers have the same low byte put the
    same four values in the same four text cells, valid or not: the stores
    are the same, the cells hold the same values at the handoff, and in each
    run all of them are made before [validate_boot_info] is entered. *)
Theorem kernel_main_display_low_byte
    (m1 m2 : machine) (bi1 bi2 : Z) (d1 d2 : BootInfo) :
  descriptors m1 !! bi1 = Some d1 ->
  descriptors m2 !! bi2 = Some d2 ->
  Z.land (multiboot_magic d1) 0xFF = Z.land (multiboot_magic d2) 0xFF ->
  exists (vbi1 vbi2 : ValidatedBootInfo) (m1' m2' : machine),
    hands_over bi1 m1 vbi1 m1' /\
    hands_over bi2 m2 vbi2 m2' /\
    vga_writes (events_since m1 m1') = vga_writes (events_since m2 m2') /\
    (forall i : Z, 0 <= i <= 3 -> vga_cells m1' !! i = vga_cells m2' !! i) /\
    vga_writes (before_validation (events_since m1 m1')) = vga_writes (events_since m1 m1') /\
    vga_writes (before_validation (events_since m2 m2')) = vga_writes (events_since m2 m2').
Proof.
  intros H1 H2 Hbyte.
  pose proof (nibble_same_low_byte 0 _ _ (or_introl eq_refl) Hbyte) as Hn0.
  pose proof (nibble_same_low_byte 1 _ _ (or_intror eq_refl) Hbyte) as Hn1.
  eexists _, _, (at_handoff bi1 d1 m1), (at_handoff bi2 d2 m2).
  split; [apply hands_over_at_handoff; exact H1 |].
  split; [apply hands_over_at_handoff; exact H2 |].
  rewrite !at_handoff_events, !at_handoff_vga_cells, Hn0, Hn1.
  split; [| split; [| split]].
  - destruct (failure d1), (failure d2); reflexivity.
  - intros i Hi.
    assert (Hcases : i = 0 \/ i = 1 \/ i = 2 \/ i = 3) by lia.
    destruct Hcases as [-> | [-> | [-> | ->]]];
      repeat first [rewrite lookup_insert_eq | rewrite lookup_insert_ne by lia];
      reflexivity.
  - destruct (failure d1); reflexivity.
  - destruct (failure d2); reflexivity.
Qed.

Lemma kernel_main_display_low_byte_witness :
  Z.land (multiboot_magic good_descriptor) 0xFF
  = Z.land (multiboot_magic same_low_byte_descriptor) 0xFF /\
  exists (vbi1 vbi2 : ValidatedBootInfo) (m1' m2' : machine),
    hands_over 0x7000 (booted good_descriptor) vbi1 m1' /\
    hands_over 0x7000 (booted same_low_byte_descriptor) vbi2 m2' /\
    vga_writes (events_since (booted good_descriptor) m1')
    = vga_writes (events_since (booted same_low_byte_descriptor) m2') /\
    (forall i : Z, 0 <= i <= 3 -> vga_cells m1' !! i = vga_cells m2' !! i) /\
    vga_writes (before_validation (events_since (booted good_descriptor) m1'))
    = vga_writes (events_since (booted good_descriptor) m1') /\
    vga_writes (before_validation (events_since (booted same_low_byte_descriptor) m2'))
    = vga_writes (events_since (booted same_low_byte_descriptor) m2').
Proof.
  split; [reflexivity |].
  apply (kernel_main_display_low_byte
           (booted good_descriptor) (booted same_low_byte_descriptor)
           0x7000 0x7000 good_descriptor same_low_byte_descriptor);
    reflexivity.
Defined.

(** C10. A call of [kernel_main] enters [validate_boot_info] once.  [errno]
    is written at most once, with 7 or 2: with 7 exactly when the magic check
    fails, with 2 exactly when the magic check passes and one of the five
    structural checks fails. *)
Theorem kernel_main_diagnostic (m : machine) (bi : Z) (d : BootInfo) :
  descriptors m !! bi = Some d ->
  exists (vbi : ValidatedBootInfo) (m' : machine),
    hands_over bi m vbi m' /\
    validations (events_since m m') = [bi] /\
    (errno_writes (events_since m m') = [] \/
     errno_writes (events_since m m') = [7] \/
     errno_writes (events_since m m') = [2]) /\
    (errno_writes (events_since m m') = [7] <-> ~ magic_ok d) /\
    (errno_writes (events_since m m') = [2] <-> magic_ok d /\ ~ structure_ok d).
Proof.
  intros H. eexists _, (at_handoff bi d m).
  split; [apply hands_over_at_handoff; exact H |].
  rewrite at_handoff_events.
  destruct (failure_cases d) as [[Hf Hd] | [[Hf Hd] | [Hf Hd]]];
    rewrite Hf; cbn; intuition congruence.
Qed.

Lemma kernel_main_diagnostic_witness :
  descriptors (booted misaligned_descriptor) !! 0x7000 = Some misaligned_descriptor /\
  exists (vbi : ValidatedBootInfo) (m' : machine),
    hands_over 0x7000 (booted misaligned_descriptor) vbi m' /\
    validations (events_since (booted misaligned_descriptor) m') = [0x7000] /\
    (errno_writes (events_since (booted misaligned_descriptor) m') = [] \/
     errno_writes (events_since (booted misaligned_descriptor) m') = [7] \/
     errno_writes (events_since (booted misaligned_descriptor) m') = [2]) /\
    (errno_writes (events_since (booted misaligned_descriptor) m') = [7]
     <-> ~ magic_ok misaligned_descriptor) /\
    (errno_writes (events_since (booted misaligned_descriptor) m') = [2]
     <-> magic_ok misaligned_descriptor /\ ~ structure_ok misaligned_descriptor).
Proof.
  split; [reflexivity |].
  apply (kernel_main_diagnostic (booted misaligned_descriptor) 0x7000
           misaligned_descriptor).
  reflexivity.
Defined.

(** ** The display *)

Lemma digit_cell (n : Z) :
  0 <= n < 16 ->
  attribute (0x0730 + n) = light_gray_on_black /\
  glyph (0x0730 + n) = 0x30 + n /\
  is_hex_digit (glyph (0x0730 + n)) = (n <=? 9).
Proof.
  intros Hn.
  assert (Hglyph : glyph (0x0730 + n) = 0x30 + n).
  { unfold glyph. rewrite (land_low_bits _ 8) by lia.
    symmetry. apply (Z.mod_unique_pos _ _ 7). all: lia. }
  split; [| split; [exact Hglyph |]].
  - unfold attribute, light_gray_on_black. rewrite Z.shiftr_div_pow2 by lia.
    symmetry. apply (Z.div_unique_pos _ _ _ (0x30 + n)). all: lia.
  - rewrite Hglyph. unfold is_hex_digit.
    destruct (Z.leb_spec n 9) as [Hle | Hgt].
    + replace (0x30 <=? 0x30 + n) with true by (symmetry; apply Z.leb_le; lia).
      replace (0x30 + n <=? 0x39) with true by (symmetry; apply Z.leb_le; lia).
      reflexivity.
    + replace (0x30 + n <=? 0x39) with false by (symmetry; apply Z.leb_gt; lia).
      replace (0x41 <=? 0x30 + n) with false by (symmetry; apply Z.leb_gt; lia).
      replace (0x61 <=? 0x30 + n) with false by (symmetry; apply Z.leb_gt; lia).
      rewrite !andb_false_r. reflexivity.
Qed.

(** X6. Every call of [kernel_main] stores to four text cells, 0 to 3 in this
    order, each with attribute [0x07]: ['O'], ['K'], then the character
    [0x30 + n] for the low nibble [n] of the magic number and the same for its
    second nibble.  That character is a hexadecimal digit when [n] is at most
    9, and only then. *)
Lemma kernel_main_display (m : machine) (bi : Z) (d : BootInfo) :
  descriptors m !! bi = Some d ->
  exists (vbi : ValidatedBootInfo) (m' : machine) (c2 c3 : Z),
    hands_over bi m vbi m' /\
    vga_writes (events_since m m') = [(0, 0x074F); (1, 0x074B); (2, c2); (3, c3)] /\
    attribute 0x074F = light_gray_on_black /\ glyph 0x074F = 0x4F /\
    attribute 0x074B = light_gray_on_black /\ glyph 0x074B = 0x4B /\
    attribute c2 = light_gray_on_black /\
    glyph c2 = 0x30 + nibble 0 (multiboot_magic d) /\
    attribute c3 = light_gray_on_black /\
    glyph c3 = 0x30 + nibble 1 (multiboot_magic d) /\
    is_hex_digit (glyph c2) = (nibble 0 (multiboot_magic d) <=? 9) /\
    is_hex_digit (glyph c3) = (nibble 1 (multiboot_magic d) <=? 9).
Proof.
  intros H.
  destruct (digit_cell _ (nibble_range 0 (multiboot_magic d))) as (Ha2 & Hg2 & Hh2).
  destruct (digit_cell _ (nibble_range 1 (multiboot_magic d))) as (Ha3 & Hg3 & Hh3).
  eexists _, (at_handoff bi d m), _, _.
  split; [apply hands_over_at_handoff; exact H |].
  rewrite at_handoff_events.
  split; [destruct (failure d); reflexivity |].
  repeat split; assumption.
Qed.

(** C5, at the descriptor whose magic number is [0xDEADBEEF].  The four cells
    are written as claimed, but cells 2 and 3 hold [0x3F] and [0x3E], the
    characters [?] and [>], for the nibbles [0xF] and [0xE] of the low byte
    [0xEF]: neither is a hexadecimal digit. *)
Theorem kernel_main_display_deadbeef :
  BootInfo_wf deadbeef_descriptor /\
  exists (vbi : ValidatedBootInfo) (m' : machine),
    hands_over 0x7000 (booted deadbeef_descriptor) vbi m' /\
    vga_writes (events_since (booted deadbeef_descriptor) m')
    = [(0, 0x074F); (1, 0x074B); (2, 0x073F); (3, 0x073E)] /\
    Z.land (multiboot_magic deadbeef_descriptor) 0xFF = 0xEF /\
    glyph 0x073F = 0x3F /\ is_hex_digit (glyph 0x073F) = false /\
    glyph 0x073E = 0x3E /\ is_hex_digit (glyph 0x073E) = false.
Proof.
  split.
  - unfold BootInfo_wf, in_u32, in_u64. cbn. lia.
  - eexists _, (at_handoff 0x7000 deadbeef_descriptor (booted deadbeef_descriptor)).
    split; [apply hands_over_at_handoff; reflexivity |].
    rewrite at_handoff_events. repeat split.
Qed.

(** * Further properties of the code *)

(** ** The validator *)

(** X1. [validate_boot_info] returns [true] for exactly the descriptors that
    pass all six checks: an accepted descriptor has the magic number
    [0x36d76289], a non-zero page-table base that is a multiple of 4096, a
    non-zero stack top that is a multiple of 16, and non-zero kernel-entry,
    framebuffer and memory-map addresses. *)
Theorem validate_true_iff (m : machine) (bi : Z) (d : BootInfo) :
  descriptors m !! bi = Some d ->
  (exists m', validate_boot_info bi m = Returns true m') <->
  magic_ok d /\ structure_ok d.
Proof.
  intros H. rewrite (validate_boot_info_run m bi d H), <- failure_none.
  split.
  - intros [m' Hrun]. destruct (failure d); [discriminate Hrun | reflexivity].
  - intros Hf. rewrite Hf. eexists. reflexivity.
Qed.

Lemma validate_true_iff_witness :
  descriptors (booted good_descriptor) !! 0x7000 = Some good_descriptor /\
  ((exists m', validate_boot_info 0x7000 (booted good_descriptor) = Returns true m') <->
   magic_ok good_descriptor /\ structure_ok good_descriptor).
Proof.
  split; [reflexivity |].
  apply (validate_true_iff (booted good_descriptor) 0x7000 good_descriptor).
  reflexivity.
Defined.

(** X2. An accepted descriptor whose fields are in the range of their C types
    has its page-table base between 4096 and [2^64 - 4096], its stack top
    between 16 and [2^64 - 16], and its three other tested addresses at
    least 1. *)
Theorem accepted_addresses_in_range (m : machine) (bi : Z) (d : BootInfo) :
  descriptors m !! bi = Some d ->
  BootInfo_wf d ->
  (exists m', validate_boot_info bi m = Returns true m') ->
  4096 <= page_table_base d <= 2 ^ 64 - 4096 /\
  16 <= stack_top d <= 2 ^ 64 - 16 /\
  1 <= kernel_entry d /\ 1 <= framebuffer_addr d /\ 1 <= memory_map_addr d.
Proof.
  intros H Hwf Hrun.
  apply (validate_true_iff m bi d H) in Hrun.
  destruct Hrun as (_ & (Hp0 & Hp1) & (Hs0 & Hs1) & Hk & Hf & Hm).
  destruct Hwf as (_ & _ & _ & _ & Hwp & Hws & Hwf & Hwm & Hwk & _).
  unfold in_u64 in *. change (2 ^ 64) with 18446744073709551616 in *.
  pose proof (Z.div_mod (page_table_base d) 4096 ltac:(lia)) as Hp.
  pose proof (Z.div_mod (stack_top d) 16 ltac:(lia)) as Hs.
  rewrite Hp1 in Hp. rewrite Hs1 in Hs.
  repeat split; lia.
Qed.

Lemma accepted_addresses_in_range_witness :
  descriptors (booted good_descriptor) !! 0x7000 = Some good_descriptor /\
  BootInfo_wf good_descriptor /\
  4096 <= page_table_base good_descriptor <= 2 ^ 64 - 4096.
Proof.
  assert (Hwf : BootInfo_wf good_descriptor)
    by (unfold BootInfo_wf, in_u32, in_u64; simpl; lia).
  split; [reflexivity | split; [exact Hwf |]].
  apply (accepted_addresses_in_range (booted good_descriptor) 0x7000 good_descriptor);
    [reflexivity | exact Hwf |].
  eexists. vm_compute. reflexivity.
Defined.

(** X3. [validate_boot_info] touches nothing but [errno]: descriptors and text
    cells are as they were, it stores to no text cell and it does not call the
    next stage. *)
Theorem validate_frame (m : machine) (bi : Z) (d : BootInfo) :
  descriptors m !! bi = Some d ->
  exists (v : bool) (m' : machine),
    validate_boot_info bi m = Returns v m' /\
    descriptors m' = descriptors m /\
    vga_cells m' = vga_cells m /\
    vga_writes (events_since m m') = [] /\
    handoffs (events_since m m') = [].
Proof.
  intros H. eexists _, _.
  split; [apply (validate_boot_info_run m bi d H) |].
  rewrite validate_events, report_descriptors, report_vga_cells.
  destruct (failure d); repeat split.
Qed.

Lemma validate_frame_witness :
  descriptors (booted misaligned_descriptor) !! 0x7000 = Some misaligned_descriptor /\
  exists (v : bool) (m' : machine),
    validate_boot_info 0x7000 (booted misaligned_descriptor) = Returns v m' /\
    descriptors m' = descriptors (booted misaligned_descriptor) /\
    vga_cells m' = vga_cells (booted misaligned_descriptor) /\
    vga_writes (events_since (booted misaligned_descriptor) m') = [] /\
    handoffs (events_since (booted misaligned_descriptor) m') = [].
Proof.
  split; [reflexivity |].
  apply (validate_frame (booted misaligned_descriptor) 0x7000 misaligned_descriptor).
  reflexivity.
Defined.

(** X4. Validation can be repeated: a second call on the same pointer gives
    the verdict of the first and leaves [errno] as the first left it. *)
Theorem validate_twice (m : machine) (bi : Z) (d : BootInfo) :
  descriptors m !! bi = Some d ->
  exists (v : bool) (m1 m2 : machine),
    validate_boot_info bi m = Returns v m1 /\
    validate_boot_info bi m1 = Returns v m2 /\
    errno_cell m2 = errno_cell m1.
Proof.
  intros H.
  set (m1 := report (failure d) (log (EvValidate bi) m)).
  assert (H1 : descriptors m1 !! bi = Some d).
  { unfold m1. rewrite report_descriptors. exact H. }
  exists (verdict (failure d)), m1, (report (failure d) (log (EvValidate bi) m1)).
  split; [apply (validate_boot_info_run m bi d H) |].
  split; [apply (validate_boot_info_run m1 bi d H1) |].
  unfold m1. destruct (failure d); reflexivity.
Qed.

Lemma validate_twice_witness :
  descriptors (booted deadbeef_descriptor) !! 0x7000 = Some deadbeef_descriptor /\
  exists (v : bool) (m1 m2 : machine),
    validate_boot_info 0x7000 (booted deadbeef_descriptor) = Returns v m1 /\
    validate_boot_info 0x7000 m1 = Returns v m2 /\
    errno_cell m2 = errno_cell m1.
Proof.
  split; [reflexivity |].
  apply (validate_twice (booted deadbeef_descriptor) 0x7000 deadbeef_descriptor).
  reflexivity.
Defined.



(** ** The entry shim *)

Lemma kernel_main_display_witness :
  descriptors (booted same_low_byte_descriptor) !! 0x7000 = Some same_low_byte_descriptor /\
  exists (vbi : ValidatedBootInfo) (m' : machine) (c2 c3 : Z),
    hands_over 0x7000 (booted same_low_byte_descriptor) vbi m' /\
    vga_writes (events_since (booted same_low_byte_descriptor) m')
    = [(0, 0x074F); (1, 0x074B); (2, c2); (3, c3)] /\
    attribute 0x074F = light_gray_on_black /\ glyph 0x074F = 0x4F /\
    attribute 0x074B = light_gray_on_black /\ glyph 0x074B = 0x4B /\
    attribute c2 = light_gray_on_black /\
    glyph c2 = 0x30 + nibble 0 (multiboot_magic same_low_byte_descriptor) /\
    attribute c3 = light_gray_on_black /\
    glyph c3 = 0x30 + nibble 1 (multiboot_magic same_low_byte_descriptor) /\
    is_hex_digit (glyph c2) = (nibble 0 (multiboot_magic same_low_byte_descriptor) <=? 9) /\
    is_hex_digit (glyph c3) = (nibble 1 (multiboot_magic same_low_byte_descriptor) <=? 9).
Proof.
  split; [reflexivity |].
  apply (kernel_main_display (booted same_low_byte_descriptor) 0x7000
           same_low_byte_descriptor).
  reflexivity.
Defined.

(** X7. What the next stage is told agrees with what [errno] holds.  The
    verdict it receives is [true] exactly for a descriptor that passes all six
    checks, and then [errno] is as it was before the call, zero or not.  When
    the verdict is [false], [errno] is the one value written during the run: 7
    if the magic number is wrong, 2 if it is right. *)
Theorem handoff_verdict_and_errno (m : machine) (bi : Z) (d : BootInfo) :
  descriptors m !! bi = Some d ->
  exists (vbi : ValidatedBootInfo) (m' : machine),
    hands_over bi m vbi m' /\
    (validity vbi = true <-> magic_ok d /\ structure_ok d) /\
    (validity vbi = true -> errno_cell m' = errno_cell m) /\
    (validity vbi = false ->
     (errno_cell m' = 7 <-> ~ magic_ok d) /\
     (errno_cell m' = 2 <-> magic_ok d) /\
     errno_writes (events_since m m') = [errno_cell m']).
Proof.
  intros H. eexists _, (at_handoff bi d m).
  split; [apply hands_over_at_handoff; exact H |].
  rewrite at_handoff_events. unfold at_handoff. cbn [validity errno_cell log].
  destruct (failure_cases d) as [[Hf Hd] | [[Hf Hd] | [Hf Hd]]];
    rewrite Hf; cbn; intuition (try discriminate; try lia).
Qed.

Lemma handoff_verdict_and_errno_witness :
  descriptors (booted misaligned_descriptor) !! 0x7000 = Some misaligned_descriptor /\
  exists (vbi : ValidatedBootInfo) (m' : machine),
    hands_over 0x7000 (booted misaligned_descriptor) vbi m' /\
    (validity vbi = true <-> magic_ok misaligned_descriptor /\ structure_ok misaligned_descriptor) /\
    (validity vbi = true -> errno_cell m' = errno_cell (booted misaligned_descriptor)) /\
    (validity vbi = false ->
     (errno_cell m' = 7 <-> ~ magic_ok misaligned_descriptor) /\
     (errno_cell m' = 2 <-> magic_ok misaligned_descriptor) /\
     errno_writes (events_since (booted misaligned_descriptor) m') = [errno_cell m']).
Proof.
  split; [reflexivity |].
  apply (handoff_verdict_and_errno (booted misaligned_descriptor) 0x7000
           misaligned_descriptor).
  reflexivity.
Defined.

(** X8. Whenever the next stage is told the descriptor is valid, the screen
    reads [OK98]: cells 0 to 3 hold ['O'], ['K'], ['9'] and ['8'] in light
    gray on black, whatever they held before.  The low byte [0x89] of the
    magic number is shown low nibble first. *)
Theorem accepted_display (m : machine) (bi : Z) (d : BootInfo) :
  descriptors m !! bi = Some d ->
  exists (vbi : ValidatedBootInfo) (m' : machine),
    hands_over bi m vbi m' /\
    (validity vbi = true ->
     vga_cells m' !! 0 = Some 0x074F /\ vga_cells m' !! 1 = Some 0x074B /\
     vga_cells m' !! 2 = Some 0x0739 /\ vga_cells m' !! 3 = Some 0x0738).
Proof.
  intros H. eexists _, (at_handoff bi d m).
  split; [apply hands_over_at_handoff; exact H |].
  cbn [validity]. intros Hv.
  assert (Hmagic : multiboot_magic d = 0x36d76289).
  { destruct (failure_cases d) as [[Hf _] | [[Hf _] | [_ [Hok _]]]];
      [rewrite Hf in Hv; discriminate Hv | rewrite Hf in Hv; discriminate Hv | exact Hok]. }
  rewrite at_handoff_vga_cells, Hmagic.
  repeat split;
    repeat first [rewrite lookup_insert_eq | rewrite lookup_insert_ne by lia];
    reflexivity.
Qed.

Lemma accepted_display_witness :
  descriptors (booted good_descriptor) !! 0x7000 = Some good_descriptor /\
  exists (vbi : ValidatedBootInfo) (m' : machine),
    hands_over 0x7000 (booted good_descriptor) vbi m' /\
    (validity vbi = true ->
     vga_cells m' !! 0 = Some 0x074F /\ vga_cells m' !! 1 = Some 0x074B /\
     vga_cells m' !! 2 = Some 0x0739 /\ vga_cells m' !! 3 = Some 0x0738).
Proof.
  split; [reflexivity |].
  apply (accepted_display (booted good_descriptor) 0x7000 good_descriptor).
  reflexivity.
Defined.

(** X9. One run of [kernel_main] does, in this order: the four stores to the
    text cells, the entry into [validate_boot_info], at most one store to
    [errno], and the call of the next stage.  A diagnostic is thus in [errno]
    before the next stage starts. *)
Theorem kernel_main_event_order (m : machine) (bi : Z) (d : BootInfo) :
  descriptors m !! bi = Some d ->
  exists (vbi : ValidatedBootInfo) (m' : machine) (c2 c3 : Z) (diag : list event),
    hands_over bi m vbi m' /\
    events_since m m'
    = [EvVga 0 0x074F; EvVga 1 0x074B; EvVga 2 c2; EvVga 3 c3; EvValidate bi]
      ++ diag ++ [EvHandoff vbi] /\
    (diag = [] \/ diag = [EvErrno 7] \/ diag = [EvErrno 2]).
Proof.
  intros H. eexists _, (at_handoff bi d m), _, _, (diagnostic_events (failure d)).
  split; [apply hands_over_at_handoff; exact H |].
  split; [apply at_handoff_events |].
  destruct (failure_cases d) as [[Hf _] | [[Hf _] | [Hf _]]]; rewrite Hf; cbn; tauto.
Qed.

Lemma kernel_main_event_order_witness :
  descriptors (booted deadbeef_descriptor) !! 0x7000 = Some deadbeef_descriptor /\
  exists (vbi : ValidatedBootInfo) (m' : machine) (c2 c3 : Z) (diag : list event),
    hands_over 0x7000 (booted deadbeef_descriptor) vbi m' /\
    events_since (booted deadbeef_descriptor) m'
    = [EvVga 0 0x074F; EvVga 1 0x074B; EvVga 2 c2; EvVga 3 c3; EvValidate 0x7000]
      ++ diag ++ [EvHandoff vbi] /\
    (diag = [] \/ diag = [EvErrno 7] \/ diag = [EvErrno 2]).
Proof.
  split; [reflexivity |].
  apply (kernel_main_event_order (booted deadbeef_descriptor) 0x7000 deadbeef_descriptor).
  reflexivity.
Defined.

(** X10. [kernel_main] has no halt of its own.  If the next stage returns,
    [kernel_main] returns too, on the machine the next stage left: nothing
    follows the call, and nothing stops a return.  With a next stage that
    comes back at once, the call returns on the machine of the handoff. *)
Theorem kernel_main_returns_if_next_stage_returns (m : machine) (bi : Z) (d : BootInfo) :
  descriptors m !! bi = Some d ->
  exists (vbi : ValidatedBootInfo) (m0 : machine),
    hands_over bi m vbi m0 /\
    kernel_main returning_stage bi m = Returns tt m0 /\
    (forall (next : ValidatedBootInfo -> M unit) (m' : machine),
        next vbi m0 = Returns tt m' -> kernel_main next bi m = Returns tt m').
Proof.
  intros H.
  pose proof (hands_over_at_handoff m bi d H) as Hrun.
  eexists _, _. split; [exact Hrun | split].
  - rewrite (Hrun returning_stage). reflexivity.
  - intros next m' Hnext. rewrite (Hrun next). exact Hnext.
Qed.

Lemma kernel_main_returns_if_next_stage_returns_witness :
  descriptors (booted good_descriptor) !! 0x7000 = Some good_descriptor /\
  exists (vbi : ValidatedBootInfo) (m0 : machine),
    hands_over 0x7000 (booted good_descriptor) vbi m0 /\
    kernel_main returning_stage 0x7000 (booted good_descriptor) = Returns tt m0 /\
    (forall (next : ValidatedBootInfo -> M unit) (m' : machine),
        next vbi m0 = Returns tt m' ->
        kernel_main next 0x7000 (booted good_descriptor) = Returns tt m').
Proof.
  split; [reflexivity |].
  apply (kernel_main_returns_if_next_stage_returns (booted good_descriptor) 0x7000
           good_descriptor).
  reflexivity.
Defined.
